(** * Witness protocol: reading, validating, discovering and summarising records

    A shallow embedding of the TypeScript reference implementation
    (read-witness-records.ts and discovery-patterns.ts) and the properties of
    the discovery and aggregation engine checked against it.

    Conventions of the embedding.
    - A JSON record is a Rocq record whose scalar fields are [option string]:
      [None] is an absent field ([undefined]), [Some s] a string of any
      content.  The unions of the TypeScript interfaces ('positive' | ...)
      are not enforced at run time, so enum fields are plain strings too.
    - [async] functions run their [await]s one after the other; they are
      embedded as sequential computations in the monad [M], which carries the
      lines written with [console.log] and an exception outcome.
    - The network is a parameter: the agent's [listRecords] and the global
      [fetch] are functions from the request to an outcome, fixed during one
      invocation.  [Date.parse] is a parameter as well. *)

From Stdlib Require Import ZArith List Ascii String Bool Lia DecimalString.
From stdpp Require Import base gmap strings list.

Local Open Scope Z_scope.

(* ====================================================================== *)
(** * JavaScript primitives used by the sources *)
(* ====================================================================== *)

Module Js.

(** Truthiness of a field that is absent or a string: [undefined] and the
    empty string are falsy. *)
Definition truthy (v : option string) : bool :=
  match v with
  | Some s => negb (String.eqb s "")
  | None => false
  end.

(** [v === s] and [v !== s] for a string [s]. *)
Definition strict_eq (v : option string) (s : string) : bool :=
  match v with
  | Some x => String.eqb x s
  | None => false
  end.

Definition strict_neq (v : option string) (s : string) : bool :=
  negb (strict_eq v s).

(** [`${v}`]: an absent value prints as [undefined]. *)
Definition template (v : option string) : string :=
  match v with
  | Some s => s
  | None => "undefined"
  end.

(** [s.startsWith(p)]. *)
Definition startsWith (s p : string) : bool := String.prefix p s.

(** [s.includes(needle)]. *)
Fixpoint includes (s needle : string) : bool :=
  String.prefix needle s ||
  match s with
  | EmptyString => false
  | String _ rest => includes rest needle
  end.

(** [s.split(sep)] for a one-character separator; never empty. *)
Fixpoint split (s : string) (sep : ascii) : list string :=
  match s with
  | EmptyString => [EmptyString]
  | String c rest =>
      if Ascii.eqb c sep then EmptyString :: split rest sep
      else match split rest sep with
           | piece :: pieces => String c piece :: pieces
           | [] => [String c EmptyString]
           end
  end.

(** [xs.join(sep)]. *)
Fixpoint join (xs : list string) (sep : string) : string :=
  match xs with
  | [] => ""
  | [x] => x
  | x :: rest => x +:+ sep +:+ join rest sep
  end.

(** [xs.includes(v)] on an array of strings, for [v] absent or a string. *)
Definition array_includes (xs : list string) (v : option string) : bool :=
  match v with
  | Some s => existsb (String.eqb s) xs
  | None => false
  end.

(** [String(n)] for an integer. *)
Definition String_of_int (n : Z) : string :=
  NilZero.string_of_int (Z.to_int n).

(** A [Set<string>] iterated in insertion order: [add] keeps the first
    occurrence. *)
Definition set_add (x : string) (s : list string) : list string :=
  if existsb (String.eqb x) s then s else s ++ [x].

(** [new Set(xs)] followed by iteration or spreading. *)
Definition set_from (xs : list string) : list string :=
  fold_left (fun s x => set_add x s) xs [].

(** [Array.prototype.sort] with a comparator.  [before x y] says that the
    comparator does not put [y] in front of [x], that is [cmp(x, y) <= 0],
    a [NaN] counting as [0].  The sort is stable; it is written as an
    insertion sort, with which every stable sort agrees when the
    comparator is a consistent ordering.  Without a comparator the strings
    are compared by code unit, which is [String.leb] on ASCII strings. *)
Fixpoint insert_sorted {A} (before : A -> A -> bool) (x : A) (l : list A)
  : list A :=
  match l with
  | [] => [x]
  | y :: rest =>
      if before x y then x :: y :: rest
      else y :: insert_sorted before x rest
  end.

Fixpoint sort {A} (before : A -> A -> bool) (l : list A) : list A :=
  match l with
  | [] => []
  | x :: rest => insert_sorted before x (sort before rest)
  end.

(** [isNaN(t)] for a time value. *)
Definition isNaN (t : option Z) : bool :=
  match t with
  | Some _ => false
  | None => true
  end.

(** [xs[0] || fallback] for arrays of objects. *)
Definition first_or {A} (xs : list A) (fallback : option A) : option A :=
  match xs with
  | x :: _ => Some x
  | [] => fallback
  end.

(** The value thrown by a failing call: the fields the sources inspect. *)
Record Error := { status : option Z; message : option string }.

Definition new_Error (msg : string) : Error :=
  {| status := None; message := Some msg |}.

End Js.

(* ====================================================================== *)
(** * Outcomes and the monad of sequential async code *)
(* ====================================================================== *)

Inductive outcome (A : Type) : Type :=
| Ok (a : A)
| Throw (e : Js.Error).
Arguments Ok {A} a.
Arguments Throw {A} e.

(** A computation yields a value or throws, and writes console lines. *)
Definition M (A : Type) : Type := outcome A * list string.

Definition ret {A} (a : A) : M A := (Ok a, []).

Definition throw {A} (e : Js.Error) : M A := (Throw e, []).

Definition bind {A B} (m : M A) (k : A -> M B) : M B :=
  match m with
  | (Ok a, out) => let '(r, out') := k a in (r, out ++ out')
  | (Throw e, out) => (Throw e, out)
  end.

(** [try { m } catch (error) { handler }]. *)
Definition try_catch {A} (m : M A) (handler : Js.Error -> M A) : M A :=
  match m with
  | (Ok a, out) => (Ok a, out)
  | (Throw e, out) => let '(r, out') := handler e in (r, out ++ out')
  end.

(** [await] of a call to the network. *)
Definition await {A} (o : outcome A) : M A := (o, []).

Definition console_log (line : string) : M unit := (Ok tt, [line]).

Notation "'do' x <- m ; k" := (bind m (fun x => k))
  (at level 10, x name, m at level 100, k at level 200).
Notation "'do_' m ; k" := (bind m (fun _ => k))
  (at level 10, m at level 100, k at level 200).

(** [for (const x of xs) body], the loop state passed along. *)
Fixpoint for_of {A S} (xs : list A) (body : A -> S -> M S) (s : S) : M S :=
  match xs with
  | [] => ret s
  | x :: rest => do s' <- body x s; for_of rest body s'
  end.

(* ====================================================================== *)
(** * Record types *)
(* ====================================================================== *)

Module OperatorRecord.
Record t := mk {
  type_ : option string;
  operatorDid : option string;
  operatorName : option string;
  constraints : option (list string);
  delegatedPermissions : option (list string);
  effectiveDate : option string;
  expirationDate : option string;
  supersedes : option string;
  createdAt : option string;
}.
End OperatorRecord.

Module Evidence.
Record t := mk {
  type_ : string;
  uri : option string;
  description : option string;
}.
End Evidence.

Module TemporalBounds.
Record t := mk {
  observedAt : option string;
  validFrom : option string;
  validUntil : option string;
}.
End TemporalBounds.

(** [_uri] and [_witnessDid] are the two fields that social discovery adds
    to the records it returns. *)
Module WitnessAttestation.
Record t := mk {
  type_ : option string;
  subjectDid : option string;
  claim : option string;
  claimCategory : option string;
  temporalBounds : option TemporalBounds.t;
  sentiment : option string;
  evidence : option (list Evidence.t);
  contestsRecord : option string;
  createdAt : option string;
  _uri : option string;
  _witnessDid : option string;
}.

Definition with_evidence (a : t) (ev : option (list Evidence.t)) : t :=
  mk (type_ a) (subjectDid a) (claim a) (claimCategory a)
     (temporalBounds a) (sentiment a) ev (contestsRecord a) (createdAt a)
     (_uri a) (_witnessDid a).

(** [{ ...value, _uri: uri, _witnessDid: witnessDid }]. *)
Definition tagged (a : t) (uri witnessDid : string) : t :=
  mk (type_ a) (subjectDid a) (claim a) (claimCategory a)
     (temporalBounds a) (sentiment a) (evidence a) (contestsRecord a)
     (createdAt a) (Some uri) (Some witnessDid).
End WitnessAttestation.

Module ValidationResult.
Record t := mk {
  valid : bool;
  errors : list string;
  warnings : list string;
}.
End ValidationResult.

(** [if (c) xs.push(line)]. *)
Definition push_if (c : bool) (line : string) (xs : list string)
  : list string :=
  if c then xs ++ [line] else xs.

(** [!xs || xs.length === 0]. *)
Definition missing_or_empty {A} (xs : option (list A)) : bool :=
  match xs with
  | Some (_ :: _) => false
  | _ => true
  end.

(* ====================================================================== *)
(** * Validation (read-witness-records.ts) *)
(* ====================================================================== *)

Section Validation.

(** [Date.parse]: the time value of a string, [None] for [NaN]. *)
Context (Date_parse : string -> option Z).

Definition validateOperatorRecord (record : OperatorRecord.t)
  : ValidationResult.t :=
  let errors := [] in
  let warnings := [] in
  let errors :=
    push_if (negb (Js.truthy (OperatorRecord.type_ record))
             || Js.strict_neq (OperatorRecord.type_ record)
                  "at.witness.operator")
      "Missing or invalid $type (expected at.witness.operator)" errors in
  let errors :=
    push_if (negb (Js.truthy (OperatorRecord.operatorDid record)))
      "Missing required field: operatorDid" errors in
  let errors :=
    push_if (negb (Js.truthy (OperatorRecord.createdAt record)))
      "Missing required field: createdAt" errors in
  let errors :=
    push_if (match OperatorRecord.operatorDid record with
             | Some did => Js.truthy (Some did)
                           && negb (Js.startsWith did "did:")
             | None => false
             end)
      "operatorDid must be a valid DID" errors in
  let errors :=
    push_if (match OperatorRecord.createdAt record with
             | Some at_ => Js.truthy (Some at_)
                           && Js.isNaN (Date_parse at_)
             | None => false
             end)
      "createdAt must be a valid ISO 8601 timestamp" errors in
  let warnings :=
    push_if (missing_or_empty (OperatorRecord.constraints record))
      "No constraints specified - consider documenting agent limitations"
      warnings in
  ValidationResult.mk (Nat.eqb (length errors) 0) errors warnings.

End Validation.

Definition validCategories : list string :=
  ["factual"; "subjective"; "predictive"].

Definition validSentiments : list string :=
  ["positive"; "negative"; "neutral"].

Definition validateAttestation (record : WitnessAttestation.t)
  : ValidationResult.t :=
  let errors := [] in
  let warnings := [] in
  let errors :=
    push_if (negb (Js.truthy (WitnessAttestation.type_ record))
             || Js.strict_neq (WitnessAttestation.type_ record)
                  "at.witness.attestation")
      "Missing or invalid $type (expected at.witness.attestation)" errors in
  let errors :=
    push_if (negb (Js.truthy (WitnessAttestation.subjectDid record)))
      "Missing required field: subjectDid" errors in
  let errors :=
    push_if (negb (Js.truthy (WitnessAttestation.claim record)))
      "Missing required field: claim" errors in
  let errors :=
    push_if (negb (Js.truthy (WitnessAttestation.createdAt record)))
      "Missing required field: createdAt" errors in
  let errors :=
    push_if (match WitnessAttestation.subjectDid record with
             | Some did => Js.truthy (Some did)
                           && negb (Js.startsWith did "did:")
             | None => false
             end)
      "subjectDid must be a valid DID" errors in
  let errors :=
    push_if (Js.truthy (WitnessAttestation.claimCategory record)
             && negb (Js.array_includes validCategories
                        (WitnessAttestation.claimCategory record)))
      ("claimCategory must be one of: " +:+ Js.join validCategories ", ")
      errors in
  let errors :=
    push_if (Js.truthy (WitnessAttestation.sentiment record)
             && negb (Js.array_includes validSentiments
                        (WitnessAttestation.sentiment record)))
      ("sentiment must be one of: " +:+ Js.join validSentiments ", ")
      errors in
  let warnings :=
    push_if (negb (Js.truthy (WitnessAttestation.claimCategory record)))
      "No claimCategory specified - helps with signal weighting" warnings in
  let warnings :=
    push_if (missing_or_empty (WitnessAttestation.evidence record))
      "No evidence provided - attestation has lower signal value"
      warnings in
  ValidationResult.mk (Nat.eqb (length errors) 0) errors warnings.

(* ====================================================================== *)
(** * Repositories and the agent *)
(* ====================================================================== *)

(** The collections the sources read, and the type each record value is
    cast to ([r.value as OperatorRecord], ...). *)
Inductive Collection : Type :=
| at_witness_operator
| at_witness_attestation
| at_witness_registry
| app_bsky_feed_post.

(** A registry record, of which only [value.witnesses] is read. *)
Module RegistryRecord.
Record t := mk { witnesses : option (list string) }.
End RegistryRecord.

(** A post, of which only [record.reply?.parent?.uri] is read. *)
Module PostRecord.
Record t := mk { reply_parent_uri : option string }.
End PostRecord.

Definition value_of (c : Collection) : Type :=
  match c with
  | at_witness_operator => OperatorRecord.t
  | at_witness_attestation => WitnessAttestation.t
  | at_witness_registry => RegistryRecord.t
  | app_bsky_feed_post => PostRecord.t
  end.

(** One entry of [response.data.records]. *)
Module Envelope.
Record t (V : Type) := mk { uri : string; value : V }.
Arguments mk {V} uri value.
Arguments uri {V} _.
Arguments value {V} _.
End Envelope.

(** [agent.com.atproto.repo.listRecords({ repo, collection, limit })]. *)
Record AtpAgent := {
  listRecords :
    forall (repo : string) (collection : Collection) (limit : nat),
      outcome (list (Envelope.t (value_of collection)));
}.

(* ====================================================================== *)
(** * Reading records (read-witness-records.ts) *)
(* ====================================================================== *)

Definition getOperatorRecords (agent : AtpAgent) (agentDid : string)
  : M (list OperatorRecord.t) :=
  try_catch
    (do response <- await (listRecords agent agentDid at_witness_operator 100);
     ret (map Envelope.value response))
    (fun error =>
       if (match Js.status error with Some 404 => true | _ => false end)
          || (match Js.message error with
              | Some msg => Js.includes msg "not found"
              | None => false
              end)
       then ret []
       else throw error).

Section Resolver.

Context (Date_parse : string -> option Z).

(** [new Date(r.createdAt).getTime()]: [NaN] for an absent or unparseable
    string. *)
Definition getTime (createdAt : option string) : option Z :=
  match createdAt with
  | Some s => Date_parse s
  | None => None
  end.

(** The comparator [(a, b) => time(b) - time(a)] of the sort, as the test
    that it does not move [b] in front of [a]. *)
Definition newest_first (a b : OperatorRecord.t) : bool :=
  match getTime (OperatorRecord.createdAt b),
        getTime (OperatorRecord.createdAt a) with
  | Some tb, Some ta => tb - ta <=? 0
  | _, _ => true
  end.

(** The loop filling [supersededBy]: the key is the [supersedes] string of
    a record, the value its [createdAt]. *)
Definition supersededBy_of (records : list OperatorRecord.t)
  : gmap string (option string) :=
  fold_left
    (fun (supersededBy : gmap string (option string)) record =>
       match OperatorRecord.supersedes record with
       | Some target =>
           if Js.truthy (Some target)
           then <[target := OperatorRecord.createdAt record]> supersededBy
           else supersededBy
       | None => supersededBy
       end)
    records ∅.

(** [Array.from(supersededBy.keys()).includes(r.createdAt)]. *)
Definition keys_include (supersededBy : gmap string (option string))
    (createdAt : option string) : bool :=
  match createdAt with
  | Some c => bool_decide (c ∈ dom supersededBy)
  | None => false
  end.

Definition unsuperseded_of (records : list OperatorRecord.t)
  : list OperatorRecord.t :=
  let supersededBy := supersededBy_of records in
  Js.sort newest_first
    (List.filter
       (fun r => negb (keys_include supersededBy
                         (OperatorRecord.createdAt r)))
       records).

(** The resolution step of [getCurrentOperator]: everything after the
    records are fetched. *)
Definition resolveCurrentOperator (records : list OperatorRecord.t)
  : option OperatorRecord.t :=
  if Nat.eqb (length records) 0 then None
  else Js.first_or (unsuperseded_of records) (head records).

Definition getCurrentOperator (agent : AtpAgent) (agentDid : string)
  : M (option OperatorRecord.t) :=
  do records <- getOperatorRecords agent agentDid;
  ret (resolveCurrentOperator records).

End Resolver.

Definition getAttestationsFrom (agent : AtpAgent) (witnessDid : string)
    (subjectDid : option string) : M (list WitnessAttestation.t) :=
  try_catch
    (do response <-
       await (listRecords agent witnessDid at_witness_attestation 100);
     let attestations := map Envelope.value response in
     let attestations :=
       match subjectDid with
       | Some subject =>
           if Js.truthy (Some subject)
           then List.filter
                  (fun a => Js.strict_eq
                              (WitnessAttestation.subjectDid a) subject)
                  attestations
           else attestations
       | None => attestations
       end in
     ret attestations)
    (fun error =>
       match Js.status error with
       | Some 404 => ret []
       | _ => throw error
       end).

(* ====================================================================== *)
(** * Aggregation (read-witness-records.ts) *)
(* ====================================================================== *)

Module ByCategory.
Record t := mk {
  factual : nat;
  subjective : nat;
  predictive : nat;
  unknown : nat;
}.
End ByCategory.

Module AttestationSummary.
Record t := mk {
  subjectDid : string;
  totalAttestations : nat;
  positiveCount : nat;
  negativeCount : nat;
  neutralCount : nat;
  byCategory : ByCategory.t;
  uniqueWitnesses : nat;
  oldestAttestation : option string;
  newestAttestation : option string;
}.
End AttestationSummary.

(** [xs.filter(p).length]. *)
Definition count_where {A} (p : A -> bool) (xs : list A) : nat :=
  length (List.filter p xs).

(** [value || null] for a string read from an array. *)
Definition or_null (v : option string) : option string :=
  if Js.truthy v then v else None.

Definition summarizeAttestations (attestations : list WitnessAttestation.t)
    (subjectDid : string) : AttestationSummary.t :=
  let relevant :=
    List.filter
      (fun a => Js.strict_eq (WitnessAttestation.subjectDid a) subjectDid)
      attestations in
  let witnesses : gset (option string) :=
    list_to_set (map WitnessAttestation.subjectDid attestations) in
  let timestamps :=
    Js.sort String.leb
      (omap (fun a => if Js.truthy (WitnessAttestation.createdAt a)
                      then WitnessAttestation.createdAt a else None)
            relevant) in
  AttestationSummary.mk
    subjectDid
    (length relevant)
    (count_where
       (fun a => Js.strict_eq (WitnessAttestation.sentiment a) "positive")
       relevant)
    (count_where
       (fun a => Js.strict_eq (WitnessAttestation.sentiment a) "negative")
       relevant)
    (count_where
       (fun a => Js.strict_eq (WitnessAttestation.sentiment a) "neutral")
       relevant)
    (ByCategory.mk
       (count_where
          (fun a => Js.strict_eq (WitnessAttestation.claimCategory a)
                      "factual") relevant)
       (count_where
          (fun a => Js.strict_eq (WitnessAttestation.claimCategory a)
                      "subjective") relevant)
       (count_where
          (fun a => Js.strict_eq (WitnessAttestation.claimCategory a)
                      "predictive") relevant)
       (count_where
          (fun a => negb (Js.truthy (WitnessAttestation.claimCategory a)))
          relevant))
    (size witnesses)
    (or_null (head timestamps))
    (or_null (last timestamps)).

(* ====================================================================== *)
(** * Discovery (discovery-patterns.ts) *)
(* ====================================================================== *)

Definition unreachable_line (witnessDid : string) : string :=
  "Could not reach witness " +:+ witnessDid +:+ ", continuing...".

(** The records of one witness repository that are about the target, as
    social discovery keeps them. *)
Definition relevant_tagged (targetAgentDid witnessDid : string)
    (records : list (Envelope.t WitnessAttestation.t))
  : list WitnessAttestation.t :=
  List.filter
    (fun a => Js.strict_eq (WitnessAttestation.subjectDid a) targetAgentDid)
    (map (fun r => WitnessAttestation.tagged (Envelope.value r)
                     (Envelope.uri r) witnessDid)
         records).

(** The body of the loop of [discoverThroughSocialGraph]. *)
Definition social_fetch (agent : AtpAgent) (targetAgentDid : string)
    (witnessDid : string) (attestations : list WitnessAttestation.t)
  : M (list WitnessAttestation.t) :=
  try_catch
    (do response <-
       await (listRecords agent witnessDid at_witness_attestation 100);
     let relevant := relevant_tagged targetAgentDid witnessDid response in
     ret (attestations ++ relevant))
    (fun _ =>
       do_ console_log (unreachable_line witnessDid);
       ret attestations).

Definition discoverThroughSocialGraph (agent : AtpAgent)
    (targetAgentDid : string) (knownWitnesses : list string)
  : M (list WitnessAttestation.t) :=
  for_of knownWitnesses (social_fetch agent targetAgentDid) [].

(** The loop over the posts inside the [try] of [findPotentialWitnesses].
    The set it fills outlives an exception, so the loop returns the set
    together with the exception that stopped it, if any:
    [uri.split('/')[2]] is [undefined] for a URI with fewer than two
    slashes and the call of [startsWith] on it throws. *)
Fixpoint scan_posts (posts : list PostRecord.t) (witnesses : list string)
  : list string * option Js.Error :=
  match posts with
  | [] => (witnesses, None)
  | post :: rest =>
      match PostRecord.reply_parent_uri post with
      | Some uri =>
          if Js.truthy (Some uri) then
            match Js.split uri "/" !! 2%nat with
            | Some parentDid =>
                scan_posts rest
                  (if Js.startsWith parentDid "did:"
                   then Js.set_add parentDid witnesses
                   else witnesses)
            | None =>
                (witnesses,
                 Some (Js.new_Error
                         "Cannot read properties of undefined"))
            end
          else scan_posts rest witnesses
      | None => scan_posts rest witnesses
      end
  end.

Definition findPotentialWitnesses (agent : AtpAgent) (targetAgentDid : string)
  : M (list string) :=
  match listRecords agent targetAgentDid app_bsky_feed_post 50 with
  | Ok posts =>
      match scan_posts (map Envelope.value posts) [] with
      | (witnesses, None) => ret witnesses
      | (witnesses, Some _) =>
          do_ console_log "Could not analyze agent social graph";
          ret witnesses
      end
  | Throw _ =>
      do_ console_log "Could not analyze agent social graph";
      ret []
  end.

(** The witnesses listed by the records of a registry, in insertion
    order. *)
Definition registered_witnesses
    (registryRecords : list (Envelope.t RegistryRecord.t)) : list string :=
  fold_left
    (fun witnesses record =>
       match RegistryRecord.witnesses (Envelope.value record) with
       | Some listed => fold_left (fun s w => Js.set_add w s) listed witnesses
       | None => witnesses
       end)
    registryRecords [].

(** The body of the inner loop of [discoverThroughRegistry]. *)
Definition registry_fetch (agent : AtpAgent) (targetAgentDid : string)
    (witnessDid : string) (attestations : list WitnessAttestation.t)
  : M (list WitnessAttestation.t) :=
  try_catch
    (do witnessAttestations <-
       await (listRecords agent witnessDid at_witness_attestation 100);
     let relevant :=
       List.filter
         (fun a => Js.strict_eq (WitnessAttestation.subjectDid a)
                     targetAgentDid)
         (map Envelope.value witnessAttestations) in
     ret (attestations ++ relevant))
    (fun _ => ret attestations).

Definition discoverThroughRegistry (agent : AtpAgent)
    (registryDid targetAgentDid : string) : M (list WitnessAttestation.t) :=
  try_catch
    (do registryRecords <-
       await (listRecords agent registryDid at_witness_registry 100);
     let witnesses := registered_witnesses registryRecords in
     for_of witnesses (registry_fetch agent targetAgentDid) [])
    (fun _ =>
       do_ console_log
         "Registry unavailable, falling back to other discovery methods";
       ret []).

Module WitnessIndexer.
Record t := mk { baseUrl : string }.
End WitnessIndexer.

Module IndexedAttestation.
Record t := mk {
  uri : string;
  witnessDid : string;
  subjectDid : string;
  claim : string;
  sentiment : option string;
  createdAt : string;
}.
End IndexedAttestation.

Module IndexerResponse.
Record t := mk {
  attestations : list IndexedAttestation.t;
  cursor : option string;
}.
End IndexerResponse.

(** What [fetch] resolves to: [ok], [status] and the outcome of
    [response.json()]. *)
Module HttpResponse.
Record t := mk {
  ok : bool;
  status : Z;
  json : outcome IndexerResponse.t;
}.
End HttpResponse.

Module IndexerOptions.
Record t := mk {
  limit : option Z;
  cursor : option string;
  sentiment : option string;
}.
End IndexerOptions.

(** [params.set(name, value)] on a [URLSearchParams]. *)
Fixpoint params_set (name value : string) (params : list (string * string))
  : list (string * string) :=
  match params with
  | [] => [(name, value)]
  | (n, v) :: rest =>
      if String.eqb n name then (n, value) :: rest
      else (n, v) :: params_set name value rest
  end.

Module DiscoveryOptions.
Record t := mk {
  knownWitnesses : option (list string);
  discoverWitnessesSocially : option bool;
  registries : option (list string);
  indexers : option (list WitnessIndexer.t);
  deduplicate : option bool;
}.
End DiscoveryOptions.

Module Sources.
Record t := mk { social : nat; registry : nat; indexer : nat }.
End Sources.

(** [keyof typeof sources]. *)
Inductive SourceKey : Type := social | registry | indexer.

Module DiscoveryResult.
Record t := mk {
  attestations : list WitnessAttestation.t;
  sources : Sources.t;
  warnings : list string;
}.
End DiscoveryResult.

(** The four variables that [discoverAttestations] mutates. *)
Module Discovering.
Record t := mk {
  attestations : list WitnessAttestation.t;
  sources : Sources.t;
  warnings : list string;
  seenUris : gset string;
}.

Definition init : t := mk [] (Sources.mk 0 0 0) [] ∅.

Definition push_warning (line : string) (st : t) : t :=
  mk (attestations st) (sources st) (warnings st ++ [line]) (seenUris st).

Definition result (st : t) : DiscoveryResult.t :=
  DiscoveryResult.mk (attestations st) (sources st) (warnings st).
End Discovering.

(** [sources[source] += n]. *)
Definition credit (source : SourceKey) (n : nat) (s : Sources.t)
  : Sources.t :=
  match source with
  | social =>
      Sources.mk (Sources.social s + n) (Sources.registry s)
        (Sources.indexer s)
  | registry =>
      Sources.mk (Sources.social s) (Sources.registry s + n)
        (Sources.indexer s)
  | indexer =>
      Sources.mk (Sources.social s) (Sources.registry s)
        (Sources.indexer s + n)
  end.

(** A boolean option read as a condition. *)
Definition enabled (flag : option bool) : bool :=
  match flag with
  | Some true => true
  | _ => false
  end.

(** [xs || []]. *)
Definition or_empty {A} (xs : option (list A)) : list A :=
  match xs with
  | Some l => l
  | None => []
  end.

(** [`${a.subjectDid}:${a.claim}:${a.createdAt}`]. *)
Definition key_of (a : WitnessAttestation.t) : string :=
  Js.template (WitnessAttestation.subjectDid a) +:+ ":" +:+
  Js.template (WitnessAttestation.claim a) +:+ ":" +:+
  Js.template (WitnessAttestation.createdAt a).

Section Discover.

(** The global [fetch], from the URL up to [?] and the query
    parameters. *)
Context (fetch : string -> list (string * string) -> outcome HttpResponse.t).

Definition discoverThroughIndexer (indexer_ : WitnessIndexer.t)
    (targetAgentDid : string) (options : option IndexerOptions.t)
  : M IndexerResponse.t :=
  let limit :=
    match options with
    | Some o =>
        match IndexerOptions.limit o with
        | Some n => if Z.eqb n 0 then 50 else n
        | None => 50
        end
    | None => 50
    end in
  let params :=
    [("subject", targetAgentDid); ("limit", Js.String_of_int limit)] in
  let params :=
    match options with
    | Some o =>
        if Js.truthy (IndexerOptions.cursor o)
        then params_set "cursor" (Js.template (IndexerOptions.cursor o))
               params
        else params
    | None => params
    end in
  let params :=
    match options with
    | Some o =>
        if Js.truthy (IndexerOptions.sentiment o)
        then params_set "sentiment"
               (Js.template (IndexerOptions.sentiment o)) params
        else params
    | None => params
    end in
  do response <-
    await (fetch (WitnessIndexer.baseUrl indexer_ +:+ "/attestations")
             params);
  if negb (HttpResponse.ok response)
  then throw (Js.new_Error
                ("Indexer error: " +:+
                 Js.String_of_int (HttpResponse.status response)))
  else await (HttpResponse.json response).

(** The body of the loop of the helper [addAttestations]. *)
Definition addAttestation (options : DiscoveryOptions.t)
    (source : SourceKey) (st : Discovering.t) (a : WitnessAttestation.t)
  : Discovering.t :=
  let key := key_of a in
  if negb (enabled (DiscoveryOptions.deduplicate options))
     || negb (bool_decide (key ∈ Discovering.seenUris st))
  then Discovering.mk
         (Discovering.attestations st ++ [a])
         (credit source 1 (Discovering.sources st))
         (Discovering.warnings st)
         ({[key]} ∪ Discovering.seenUris st)
  else st.

(** The helper [addAttestations] of [discoverAttestations]. *)
Definition addAttestations (options : DiscoveryOptions.t)
    (newAttestations : list WitnessAttestation.t) (source : SourceKey)
    (st : Discovering.t) : Discovering.t :=
  fold_left (addAttestation options source) newAttestations st.

(** The witnesses of the social channel and the state after looking for
    them: step 1 of [discoverAttestations] up to the social fetches. *)
Definition find_witnesses (agent : AtpAgent) (targetAgentDid : string)
    (options : DiscoveryOptions.t) (st : Discovering.t)
  : M (list string * Discovering.t) :=
  let witnesses := or_empty (DiscoveryOptions.knownWitnesses options) in
  if enabled (DiscoveryOptions.discoverWitnessesSocially options)
  then
    try_catch
      (do discovered <- findPotentialWitnesses agent targetAgentDid;
       ret (Js.set_from (witnesses ++ discovered), st))
      (fun _ =>
         ret (witnesses,
              Discovering.push_warning
                "Could not discover witnesses from social graph" st))
  else ret (witnesses, st).

(** The body of the loop over the registries. *)
Definition registry_step (agent : AtpAgent) (targetAgentDid : string)
    (options : DiscoveryOptions.t) (registryDid : string)
    (st : Discovering.t) : M Discovering.t :=
  try_catch
    (do registryAttestations <-
       discoverThroughRegistry agent registryDid targetAgentDid;
     ret (addAttestations options registryAttestations registry st))
    (fun _ =>
       ret (Discovering.push_warning
              ("Registry " +:+ registryDid +:+ " unavailable") st)).

Definition indexer_line (indexer_ : WitnessIndexer.t) : string :=
  "Indexer " +:+ WitnessIndexer.baseUrl indexer_ +:+ " unavailable".

(** The body of the loop over the indexers. *)
Definition indexer_step (targetAgentDid : string)
    (indexer_ : WitnessIndexer.t) (st : Discovering.t)
  : M Discovering.t :=
  try_catch
    (do response <- discoverThroughIndexer indexer_ targetAgentDid None;
     ret (Discovering.mk
            (Discovering.attestations st)
            (credit indexer
               (length (IndexerResponse.attestations response))
               (Discovering.sources st))
            (Discovering.warnings st)
            (Discovering.seenUris st)))
    (fun _ => ret (Discovering.push_warning (indexer_line indexer_) st)).

Definition discoverAttestations (agent : AtpAgent)
    (targetAgentDid : string) (options : DiscoveryOptions.t)
  : M DiscoveryResult.t :=
  do found <-
    find_witnesses agent targetAgentDid options Discovering.init;
  let '(witnesses, st) := found in
  do st <-
    (if (0 <? length witnesses)%nat
     then
       do socialAttestations <-
         discoverThroughSocialGraph agent targetAgentDid witnesses;
       ret (addAttestations options socialAttestations social st)
     else ret st);
  do st <-
    for_of (or_empty (DiscoveryOptions.registries options))
      (registry_step agent targetAgentDid options) st;
  do st <-
    for_of (or_empty (DiscoveryOptions.indexers options))
      (indexer_step targetAgentDid) st;
  ret (Discovering.result st).

End Discover.

(* ====================================================================== *)
(** * A concrete [Date.parse] for the examples *)
(* ====================================================================== *)

(** The UTC form [YYYY-MM-DDTHH:mm:ssZ] (optionally with [.sss]) of the
    date-time string format that every ECMAScript engine parses; the time
    value is in milliseconds since 1970-01-01T00:00:00Z.  Every other string
    is [NaN] here.  The general theorems hold for every [Date.parse]; this
    one evaluates the examples, whose timestamps are all of this form. *)
Module Iso8601.

Definition digit (c : ascii) : option Z :=
  let n := Z.of_nat (nat_of_ascii c) in
  if (48 <=? n) && (n <=? 57) then Some (n - 48) else None.

Fixpoint number (cs : list ascii) (acc : Z) : option Z :=
  match cs with
  | [] => Some acc
  | c :: rest =>
      match digit c with
      | Some d => number rest (10 * acc + d)
      | None => None
      end
  end.

(** The decimal number written in [len] characters from position [pos]. *)
Definition field (cs : list ascii) (pos len : nat) : option Z :=
  let piece := firstn len (skipn pos cs) in
  if Nat.eqb (length piece) len then number piece 0 else None.

Definition char_is (cs : list ascii) (pos : nat) (c : ascii) : bool :=
  match nth_error cs pos with
  | Some c' => Ascii.eqb c' c
  | None => false
  end.

Definition leap (y : Z) : bool :=
  ((y mod 4 =? 0) && negb (y mod 100 =? 0)) || (y mod 400 =? 0).

Definition days_in_month (y m : Z) : Z :=
  if m =? 2 then (if leap y then 29 else 28)
  else if (m =? 4) || (m =? 6) || (m =? 9) || (m =? 11) then 30
  else 31.

(** Days from 1970-01-01 to the given civil date. *)
Definition days_from_civil (y m d : Z) : Z :=
  let y' := if m <=? 2 then y - 1 else y in
  let era := y' / 400 in
  let yoe := y' - era * 400 in
  let mp := if 2 <? m then m - 3 else m + 9 in
  let doy := (153 * mp + 2) / 5 + d - 1 in
  let doe := yoe * 365 + yoe / 4 - yoe / 100 + doy in
  era * 146097 + doe - 719468.

Definition parse (s : string) : option Z :=
  let cs := list_ascii_of_string s in
  let n := length cs in
  let shape :=
    char_is cs 4 "-" && char_is cs 7 "-" && char_is cs 10 "T"
    && char_is cs 13 ":" && char_is cs 16 ":"
    && ((Nat.eqb n 20 && char_is cs 19 "Z")
        || (Nat.eqb n 24 && char_is cs 19 "." && char_is cs 23 "Z")) in
  if negb shape then None
  else
    match field cs 0 4, field cs 5 2, field cs 8 2,
          field cs 11 2, field cs 14 2, field cs 17 2,
          (if Nat.eqb n 24 then field cs 20 3 else Some 0) with
    | Some y, Some m, Some d, Some h, Some mi, Some sec, Some ms =>
        if (1 <=? m) && (m <=? 12) && (1 <=? d)
           && (d <=? days_in_month y m)
           && (h <=? 23) && (mi <=? 59) && (sec <=? 59)
        then Some ((((days_from_civil y m d * 24 + h) * 60 + mi) * 60
                    + sec) * 1000 + ms)
        else None
    | _, _, _, _, _, _, _ => None
    end.

End Iso8601.

(* ====================================================================== *)
(** * The words of the specification, for comparison with the code *)
(* ====================================================================== *)

(** The superseded set of the specification: the record references that
    appear as a [supersedes] target of a record in the set.  A record's own
    reference is the URI under which its repository lists it. *)
Definition spec_superseded_set
    (records : list (Envelope.t OperatorRecord.t)) : list string :=
  omap (fun r => OperatorRecord.supersedes (Envelope.value r)) records.

Definition spec_is_superseded (records : list (Envelope.t OperatorRecord.t))
    (r : Envelope.t OperatorRecord.t) : bool :=
  existsb (String.eqb (Envelope.uri r)) (spec_superseded_set records).

(** The candidate tip set of the specification: every record whose own
    reference is not in the superseded set. *)
Definition spec_candidate_tips
    (records : list (Envelope.t OperatorRecord.t))
  : list (Envelope.t OperatorRecord.t) :=
  List.filter (fun r => negb (spec_is_superseded records r)) records.

(** The distinct witnesses of the specification: the witnesses whose
    attestations about the subject are in the set.  The witness of an
    attestation is the repository it was read from, which social discovery
    records in [_witnessDid]. *)
Definition spec_distinct_witnesses
    (attestations : list WitnessAttestation.t) (subjectDid : string) : nat :=
  size (list_to_set
          (map WitnessAttestation._witnessDid
             (List.filter
                (fun a => Js.strict_eq (WitnessAttestation.subjectDid a)
                            subjectDid)
                attestations)) : gset (option string)).

(** [msg] mentions [w]: [w] occurs in it. *)
Definition mentions (msg w : string) : Prop :=
  exists before after, msg = before +:+ w +:+ after.

(** [r] has the latest [createdAt] of [records]: its timestamp parses and
    none in [records] is later. *)
Definition latest_createdAt (Date_parse : string -> option Z)
    (records : list OperatorRecord.t) (r : OperatorRecord.t) : Prop :=
  exists t, getTime Date_parse (OperatorRecord.createdAt r) = Some t /\
    forall r' t', r' ∈ records ->
      getTime Date_parse (OperatorRecord.createdAt r') = Some t' -> t' <= t.

(* ====================================================================== *)
(** * Sample records, repositories and auxiliary definitions *)
(* ====================================================================== *)

Definition sample_evidence : Evidence.t :=
  Evidence.mk "interaction" None (Some "Support conversation").

(** A complete attestation, after the example of the scenarios. *)
Definition sample_attestation : WitnessAttestation.t :=
  WitnessAttestation.mk
    (Some "at.witness.attestation") (Some "did:plc:agent-example")
    (Some "Very helpful, accurate information") (Some "subjective") None
    (Some "positive") (Some [sample_evidence]) None
    (Some "2026-01-10T10:00:00Z") None None.

(** The same attestation without [createdAt], and with a sentiment outside
    the declared values. *)
Definition unstamped_attestation : WitnessAttestation.t :=
  WitnessAttestation.mk
    (Some "at.witness.attestation") (Some "did:plc:agent-example")
    (Some "Very helpful, accurate information") (Some "subjective") None
    (Some "positive") (Some [sample_evidence]) None None None None.

Definition angry_attestation : WitnessAttestation.t :=
  WitnessAttestation.mk
    (Some "at.witness.attestation") (Some "did:plc:agent-example")
    (Some "Very helpful, accurate information") (Some "subjective") None
    (Some "angry") (Some [sample_evidence]) None
    (Some "2026-01-10T10:00:00Z") None None.

(** The same attestation and an operator record with a [createdAt] that is
    not a timestamp. *)
Definition undated_attestation : WitnessAttestation.t :=
  WitnessAttestation.mk
    (Some "at.witness.attestation") (Some "did:plc:agent-example")
    (Some "Very helpful, accurate information") (Some "subjective") None
    (Some "positive") (Some [sample_evidence]) None
    (Some "not-a-timestamp") None None.

Definition undated_operator : OperatorRecord.t :=
  OperatorRecord.mk
    (Some "at.witness.operator") (Some "did:plc:operator-acme-corp")
    (Some "Acme Corporation") (Some ["Customer support inquiries only"])
    None None None None (Some "not-a-timestamp").

(** The [claimCategory] of the record is as the interface declares it:
    absent, or one of the three categories. *)
Definition category_declared (a : WitnessAttestation.t) : Prop :=
  forall c, WitnessAttestation.claimCategory a = Some c ->
            In c validCategories.

(** The positive and the negative attestation of the disputed scenario, as
    social discovery returns them from Alice's and Bob's repositories, and
    an attestation by Alice about another subject. *)
Definition alice_attestation : WitnessAttestation.t :=
  WitnessAttestation.tagged sample_attestation
    "at://did:plc:alice/at.witness.attestation/positive1" "did:plc:alice".

Definition bob_attestation : WitnessAttestation.t :=
  WitnessAttestation.mk
    (Some "at.witness.attestation") (Some "did:plc:agent-example")
    (Some "Provided incorrect pricing information that cost me money")
    (Some "subjective") None (Some "negative") None None
    (Some "2026-01-15T14:30:00Z")
    (Some "at://did:plc:bob/at.witness.attestation/negative1")
    (Some "did:plc:bob").

Definition other_subject_attestation : WitnessAttestation.t :=
  WitnessAttestation.mk
    (Some "at.witness.attestation") (Some "did:plc:agent-acme-support")
    (Some "Helped me resolve a billing issue") None None None None None
    (Some "2026-01-16T09:00:00Z")
    (Some "at://did:plc:alice/at.witness.attestation/billing1")
    (Some "did:plc:alice").

(** ** Repositories

    What a repository table answers: the records listed under the
    repository, or a transport error when it is not in the table. *)
Definition unreachable : Js.Error :=
  {| Js.status := None; Js.message := Some "fetch failed" |}.

Definition lookup_repo {V} (repo : string)
    (table : list (string * list (Envelope.t V)))
  : outcome (list (Envelope.t V)) :=
  match List.find (fun entry => String.eqb (fst entry) repo) table with
  | Some entry => Ok (snd entry)
  | None => Throw unreachable
  end.

(** An agent in front of a fixed network, given by one table per
    collection. *)
Definition agent_of
    (operators : list (string * list (Envelope.t OperatorRecord.t)))
    (attestations : list (string * list (Envelope.t WitnessAttestation.t)))
    (registries : list (string * list (Envelope.t RegistryRecord.t)))
    (posts : list (string * list (Envelope.t PostRecord.t))) : AtpAgent :=
  {| listRecords repo collection _ :=
       match collection
             return outcome (list (Envelope.t (value_of collection))) with
       | at_witness_operator => lookup_repo repo operators
       | at_witness_attestation => lookup_repo repo attestations
       | at_witness_registry => lookup_repo repo registries
       | app_bsky_feed_post => lookup_repo repo posts
       end |}.

Definition operator_record (supersedes : option string) (createdAt : string)
  : OperatorRecord.t :=
  OperatorRecord.mk
    (Some "at.witness.operator") (Some "did:plc:original-operator")
    (Some "Original Company") (Some ["General assistance"])
    None None None supersedes (Some createdAt).

(** A later record that a backdated one supersedes. *)
Definition superseded_operator : Envelope.t OperatorRecord.t :=
  Envelope.mk "at://did:plc:agent-migrating/at.witness.operator/first"
    (operator_record None "2026-02-01T00:00:00Z").

Definition superseding_operator : Envelope.t OperatorRecord.t :=
  Envelope.mk "at://did:plc:agent-migrating/at.witness.operator/second"
    (operator_record
       (Some "at://did:plc:agent-migrating/at.witness.operator/first")
       "2026-01-01T00:00:00Z").

Definition migrating_agent : AtpAgent :=
  agent_of
    [("did:plc:agent-migrating", [superseded_operator; superseding_operator])]
    [] [] [].

(** Two records that supersede each other. *)
Definition cycle_first : Envelope.t OperatorRecord.t :=
  Envelope.mk "at://did:plc:agent-cycle/at.witness.operator/a"
    (operator_record (Some "at://did:plc:agent-cycle/at.witness.operator/b")
       "2026-01-01T00:00:00Z").

Definition cycle_second : Envelope.t OperatorRecord.t :=
  Envelope.mk "at://did:plc:agent-cycle/at.witness.operator/b"
    (operator_record (Some "at://did:plc:agent-cycle/at.witness.operator/a")
       "2026-02-01T00:00:00Z").

Definition cycle_agent : AtpAgent :=
  agent_of [("did:plc:agent-cycle", [cycle_first; cycle_second])] [] [] [].

(** Two records that supersede each other in a repository that uses the
    creation time of a record as its reference. *)
Definition dated_first : Envelope.t OperatorRecord.t :=
  Envelope.mk "2026-01-01T00:00:00Z"
    (operator_record (Some "2026-02-01T00:00:00Z") "2026-01-01T00:00:00Z").

Definition dated_second : Envelope.t OperatorRecord.t :=
  Envelope.mk "2026-02-01T00:00:00Z"
    (operator_record (Some "2026-01-01T00:00:00Z") "2026-02-01T00:00:00Z").

Definition dated_agent : AtpAgent :=
  agent_of [("did:plc:agent-dated", [dated_first; dated_second])] [] [] [].

(** ** Properties as the specification words them

    The fallback as the specification words it: the run returns the record
    with the overall latest [createdAt] and surfaces a warning.  The only
    things a run of [getCurrentOperator] hands over are its returned value
    and its console lines. *)
Definition resolves_to_latest_with_warning
    (Date_parse : string -> option Z) (agent : AtpAgent) (agentDid : string)
    (envs : list (Envelope.t OperatorRecord.t)) : Prop :=
  exists r console,
    getCurrentOperator Date_parse agent agentDid = (Ok (Some r), console)
    /\ latest_createdAt Date_parse (map Envelope.value envs) r
    /\ console <> [].

(** ** Runs and states of discovery

    What one witness contributes to social discovery: its records about
    the target, or one console line when it cannot be reached. *)
Definition social_records (agent : AtpAgent) (targetAgentDid : string)
    (witnessDid : string) : list WitnessAttestation.t :=
  match listRecords agent witnessDid at_witness_attestation 100 with
  | Ok response => relevant_tagged targetAgentDid witnessDid response
  | Throw _ => []
  end.

Definition social_lines (agent : AtpAgent) (witnessDid : string)
  : list string :=
  match listRecords agent witnessDid at_witness_attestation 100 with
  | Ok _ => []
  | Throw _ => [unreachable_line witnessDid]
  end.

Definition graph_line : string := "Could not analyze agent social graph".

Definition registry_line : string :=
  "Registry unavailable, falling back to other discovery methods".

(** The keys seen are the keys of the attestations kept. *)
Definition seen_are_keys (st : Discovering.t) : Prop :=
  forall k, k ∈ Discovering.seenUris st <->
            exists a, a ∈ Discovering.attestations st /\ key_of a = k.

(** The social and registry counters count the attestations kept. *)
Definition counted (st : Discovering.t) : Prop :=
  length (Discovering.attestations st) =
  (Sources.social (Discovering.sources st)
   + Sources.registry (Discovering.sources st))%nat.

(** Every warning is the line of one of the indexers. *)
Definition warned_by_indexers (options : DiscoveryOptions.t)
    (st : Discovering.t) : Prop :=
  forall line, line ∈ Discovering.warnings st ->
    exists indexer_, indexer_ ∈ or_empty (DiscoveryOptions.indexers options)
                     /\ line = indexer_line indexer_.

(** With deduplication on, no two attestations kept share a key. *)
Definition keys_unique (options : DiscoveryOptions.t) (st : Discovering.t)
  : Prop :=
  enabled (DiscoveryOptions.deduplicate options) = true ->
  NoDup (map key_of (Discovering.attestations st)).

Definition consistent (options : DiscoveryOptions.t) (st : Discovering.t)
  : Prop :=
  seen_are_keys st /\ counted st /\ warned_by_indexers options st
  /\ keys_unique options st.

(** [st'] keeps every attestation of [st]. *)
Definition keeps (st st' : Discovering.t) : Prop :=
  forall a, a ∈ Discovering.attestations st ->
            a ∈ Discovering.attestations st'.

(** The scenario: one witness answers, one is unreachable. *)
Definition subject : string := "did:plc:agent-example".
Definition witness_1 : string := "did:plc:trusted-witness-1".
Definition witness_2 : string := "did:plc:trusted-witness-2".

(** The one positive attestation in the repository of the first witness. *)
Definition witnessed : Envelope.t WitnessAttestation.t :=
  Envelope.mk "at://did:plc:trusted-witness-1/at.witness.attestation/positive1"
    sample_attestation.

(** The first witness is listed; the second is not and cannot be
    reached.  The registry lists the first witness. *)
Definition scenario_agent : AtpAgent :=
  agent_of []
    [(witness_1, [witnessed])]
    [("did:plc:witness-registry",
      [Envelope.mk "at://did:plc:witness-registry/at.witness.registry/self"
         (RegistryRecord.mk (Some [witness_1]))])]
    [].

Definition no_fetch (url : string) (params : list (string * string))
  : outcome HttpResponse.t :=
  Throw unreachable.

Definition known_only (witnesses : list string) (deduplicate : option bool)
  : DiscoveryOptions.t :=
  DiscoveryOptions.mk (Some witnesses) None None None deduplicate.

(** An indexer that has indexed the attestation of the first witness. *)
Definition example_indexer : WitnessIndexer.t :=
  WitnessIndexer.mk "https://witness-index.example.com".

Definition indexed : IndexedAttestation.t :=
  IndexedAttestation.mk
    "at://did:plc:trusted-witness-1/at.witness.attestation/positive1"
    witness_1 subject "Very helpful, accurate information"
    (Some "positive") "2026-01-10T10:00:00Z".

Definition indexer_fetch (url : string) (params : list (string * string))
  : outcome HttpResponse.t :=
  if String.eqb url "https://witness-index.example.com/attestations"
  then Ok (HttpResponse.mk true 200
             (Ok (IndexerResponse.mk [indexed] None)))
  else Throw unreachable.

(** The canonical key of a record as an indexer reports it. *)
Definition indexed_key (i : IndexedAttestation.t) : string :=
  IndexedAttestation.subjectDid i +:+ ":" +:+ IndexedAttestation.claim i
  +:+ ":" +:+ IndexedAttestation.createdAt i.

(** The isolation property as the specification words it: the run
    returns one attestation, credits the social channel once, and its
    warnings are one line, which mentions the witness that failed. *)
Definition isolated_with_warning (run : M DiscoveryResult.t)
    (failed : string) : Prop :=
  exists r console,
    run = (Ok r, console)
    /\ length (DiscoveryResult.attestations r) = 1%nat
    /\ Sources.social (DiscoveryResult.sources r) = 1%nat
    /\ exists line, DiscoveryResult.warnings r = [line]
                    /\ mentions line failed.

(* ====================================================================== *)
(** * Validation: properties *)
(* ====================================================================== *)

Lemma push_if_keeps c line xs x : x ∈ xs -> x ∈ push_if c line xs.
Proof.
  intros Hx. unfold push_if. destruct c; [apply elem_of_app; by left | done].
Qed.

Lemma push_if_pushed line xs : line ∈ push_if true line xs.
Proof. simpl. apply elem_of_app. right. by apply list_elem_of_singleton. Qed.

Lemma push_if_nil_inv c line xs : push_if c line xs = [] -> xs = [] /\ c = false.
Proof.
  unfold push_if. destruct c; [|done].
  intros H. by destruct (app_cons_not_nil xs [] line).
Qed.

Lemma valid_true_iff_errors (record : WitnessAttestation.t) :
  ValidationResult.valid (validateAttestation record) = true <->
  ValidationResult.errors (validateAttestation record) = [].
Proof.
  unfold validateAttestation. cbn [ValidationResult.valid ValidationResult.errors].
  rewrite Nat.eqb_eq. split.
  - intros H. by apply nil_length_inv.
  - by intros ->.
Qed.

Lemma rejected_of_error (record : WitnessAttestation.t) line :
  line ∈ ValidationResult.errors (validateAttestation record) ->
  ValidationResult.valid (validateAttestation record) = false.
Proof.
  intros Hin. apply not_true_is_false. rewrite valid_true_iff_errors.
  intros Hnil. rewrite Hnil in Hin. by apply not_elem_of_nil in Hin.
Qed.

(** The error list does not look at the evidence. *)
Lemma errors_with_evidence (record : WitnessAttestation.t) ev :
  ValidationResult.errors
    (validateAttestation (WitnessAttestation.with_evidence record ev)) =
  ValidationResult.errors (validateAttestation record).
Proof. by destruct record. Qed.

Ltac find_pushed :=
  repeat first [ apply push_if_pushed | apply push_if_keeps ].

(** C7.  An attestation without [createdAt] is rejected with an error that
    mentions the missing field; an attestation whose sentiment is "angry" is
    rejected; and an attestation that validates still validates when its
    evidence is taken away (absent, or an empty array), and then carries at
    least one warning. *)
Theorem validateAttestation_correct (record : WitnessAttestation.t) :
  (WitnessAttestation.createdAt record = None ->
     ValidationResult.valid (validateAttestation record) = false /\
     exists line, line ∈ ValidationResult.errors (validateAttestation record)
                  /\ mentions line "createdAt")
  /\ (WitnessAttestation.sentiment record = Some "angry" ->
        ValidationResult.valid (validateAttestation record) = false)
  /\ (ValidationResult.valid (validateAttestation record) = true ->
      forall ev, missing_or_empty ev = true ->
        let bare := WitnessAttestation.with_evidence record ev in
        ValidationResult.valid (validateAttestation bare) = true /\
        ValidationResult.warnings (validateAttestation bare) <> []).
Proof.
  split; [|split].
  - intros Hmissing.
    assert (Hin : "Missing required field: createdAt"
                  ∈ ValidationResult.errors (validateAttestation record)).
    { unfold validateAttestation. cbn [ValidationResult.errors].
      rewrite Hmissing. cbn [Js.truthy negb]. find_pushed. }
    split; [by eapply rejected_of_error|].
    eexists; split; [exact Hin|].
    by exists "Missing required field: ", "".
  - intros Hangry. eapply rejected_of_error.
    unfold validateAttestation. cbn [ValidationResult.errors].
    rewrite Hangry.
    change (Js.truthy (Some "angry")
            && negb (Js.array_includes validSentiments (Some "angry")))
      with true.
    find_pushed.
  - intros Hvalid ev Hev bare. subst bare. split.
    + apply valid_true_iff_errors. rewrite errors_with_evidence.
      by apply valid_true_iff_errors.
    + unfold validateAttestation. cbn [ValidationResult.warnings].
      destruct record; cbn [WitnessAttestation.with_evidence
        WitnessAttestation.evidence WitnessAttestation.claimCategory].
      rewrite Hev. intros Hnil. apply push_if_nil_inv in Hnil.
      by destruct Hnil.
Qed.

Lemma validateAttestation_correct_witness :
  (ValidationResult.valid (validateAttestation unstamped_attestation) = false
   /\ exists line,
        line ∈ ValidationResult.errors
                 (validateAttestation unstamped_attestation)
        /\ mentions line "createdAt")
  /\ ValidationResult.valid (validateAttestation angry_attestation) = false
  /\ ValidationResult.valid (validateAttestation sample_attestation) = true
  /\ ValidationResult.valid
       (validateAttestation
          (WitnessAttestation.with_evidence sample_attestation None)) = true
  /\ ValidationResult.warnings
       (validateAttestation
          (WitnessAttestation.with_evidence sample_attestation None)) <> [].
Proof.
  split.
  { apply (proj1 (validateAttestation_correct unstamped_attestation)).
    reflexivity. }
  split.
  { apply (proj1 (proj2 (validateAttestation_correct angry_attestation))).
    reflexivity. }
  split; [reflexivity|].
  apply (proj2 (proj2 (validateAttestation_correct sample_attestation)));
    reflexivity.
Defined.

(** An operator record whose [createdAt] is present and does not parse is
    rejected, whatever [Date.parse] is. *)
Lemma validateOperatorRecord_unparseable Date_parse
    (record : OperatorRecord.t) s :
  OperatorRecord.createdAt record = Some s ->
  Date_parse s = None ->
  ValidationResult.valid (validateOperatorRecord Date_parse record) = false.
Proof.
  intros Hat Hnan. unfold validateOperatorRecord.
  cbn [ValidationResult.valid]. rewrite Hat, Hnan. cbn [Js.isNaN].
  apply Nat.eqb_neq. intros Hlen. apply nil_length_inv in Hlen.
  destruct (Js.truthy (Some s)) eqn:Hs; cbn [andb negb] in Hlen.
  - by apply push_if_nil_inv in Hlen as [_ ?].
  - apply push_if_nil_inv in Hlen as [Hlen _].
    apply push_if_nil_inv in Hlen as [Hlen _].
    by apply push_if_nil_inv in Hlen as [_ ?].
Qed.

(** The attestation validator never reads the content of a non-empty
    [createdAt]: two records that differ only there get the same result. *)
Lemma validateAttestation_createdAt_unread ty su cl ca tb se ev co u w s s' :
  s <> "" -> s' <> "" ->
  validateAttestation
    (WitnessAttestation.mk ty su cl ca tb se ev co (Some s) u w) =
  validateAttestation
    (WitnessAttestation.mk ty su cl ca tb se ev co (Some s') u w).
Proof.
  intros Hs Hs'. unfold validateAttestation.
  cbn [WitnessAttestation.createdAt Js.truthy].
  apply String.eqb_neq in Hs, Hs'. by rewrite Hs, Hs'.
Qed.

(** C6.  The string "not-a-timestamp" does not parse; the operator record
    that carries it as [createdAt] is rejected, and the attestation that
    carries it is accepted without any error or warning. *)
Theorem validateAttestation_accepts_unparseable_createdAt :
  Iso8601.parse "not-a-timestamp" = None /\
  ValidationResult.valid
    (validateOperatorRecord Iso8601.parse undated_operator) = false /\
  validateAttestation undated_attestation = ValidationResult.mk true [] [].
Proof. repeat split; reflexivity. Qed.

(* ====================================================================== *)
(** * Aggregation: properties *)
(* ====================================================================== *)

Lemma count_where_cons {A} (p : A -> bool) x xs :
  count_where p (x :: xs) = (Nat.b2n (p x) + count_where p xs)%nat.
Proof. unfold count_where. simpl. by destruct (p x). Qed.

(** Predicates of which at most one holds of each element count at most
    the length. *)
Lemma count_where_disjoint3 {A} (p q r : A -> bool) xs :
  (forall x, x ∈ xs -> (Nat.b2n (p x) + Nat.b2n (q x) + Nat.b2n (r x) <= 1)%nat) ->
  (count_where p xs + count_where q xs + count_where r xs <= length xs)%nat.
Proof.
  induction xs as [|x xs IH]; intros Hone; [done|].
  rewrite !count_where_cons. simpl.
  pose proof (Hone x ltac:(left)) as Hx.
  pose proof (IH (fun y Hy => Hone y ltac:(by right))) as Hxs.
  lia.
Qed.

(** Predicates of which exactly one holds of each element count exactly the
    length. *)
Lemma count_where_partition4 {A} (p q r s : A -> bool) xs :
  (forall x, x ∈ xs ->
     (Nat.b2n (p x) + Nat.b2n (q x) + Nat.b2n (r x) + Nat.b2n (s x) = 1)%nat) ->
  (count_where p xs + count_where q xs + count_where r xs + count_where s xs
   = length xs)%nat.
Proof.
  induction xs as [|x xs IH]; intros Hone; [done|].
  rewrite !count_where_cons. simpl.
  pose proof (Hone x ltac:(left)) as Hx.
  pose proof (IH (fun y Hy => Hone y ltac:(by right))) as Hxs.
  lia.
Qed.

Lemma sentiment_at_most_one (v : option string) :
  (Nat.b2n (Js.strict_eq v "positive") + Nat.b2n (Js.strict_eq v "negative")
   + Nat.b2n (Js.strict_eq v "neutral") <= 1)%nat.
Proof.
  destruct v as [s|]; [|simpl; lia]. unfold Js.strict_eq.
  destruct (String.eqb_spec s "positive") as [->|]; [simpl; lia|].
  destruct (String.eqb_spec s "negative") as [->|]; [simpl; lia|].
  destruct (String.eqb s "neutral"); simpl; lia.
Qed.

Lemma category_exactly_one (v : option string) :
  (forall c, v = Some c -> In c validCategories) ->
  (Nat.b2n (Js.strict_eq v "factual") + Nat.b2n (Js.strict_eq v "subjective")
   + Nat.b2n (Js.strict_eq v "predictive") + Nat.b2n (negb (Js.truthy v))
   = 1)%nat.
Proof.
  intros Hdecl. destruct v as [c|]; [|reflexivity].
  destruct (Hdecl c eq_refl) as [<-|[<-|[<-|[]]]]; reflexivity.
Qed.



(** C9.  Two witnesses, Alice and Bob, attest about one subject: the
    summary reports one unique witness where there are two.  And when
    Alice attests about two subjects, the summary for one of them reports
    two unique witnesses where there is one: [uniqueWitnesses] counts the
    subjects of the whole input. *)
Theorem uniqueWitnesses_counts_subjects :
  (AttestationSummary.uniqueWitnesses
     (summarizeAttestations [alice_attestation; bob_attestation]
        "did:plc:agent-example") = 1%nat
   /\ spec_distinct_witnesses [alice_attestation; bob_attestation]
        "did:plc:agent-example" = 2%nat)
  /\ (AttestationSummary.uniqueWitnesses
        (summarizeAttestations
           [alice_attestation; other_subject_attestation]
           "did:plc:agent-example") = 2%nat
      /\ spec_distinct_witnesses
           [alice_attestation; other_subject_attestation]
           "did:plc:agent-example" = 1%nat).
Proof. repeat split; vm_compute; reflexivity. Qed.

(* ====================================================================== *)
(** * Supersession: properties *)
(* ====================================================================== *)

Lemma elem_of_insert_sorted {A} (before : A -> A -> bool) x y l :
  y ∈ Js.insert_sorted before x l <-> y = x \/ y ∈ l.
Proof.
  induction l as [|z l IH]; simpl.
  - rewrite list_elem_of_singleton. split; [by left|].
    intros [?|H]; [done|by apply not_elem_of_nil in H].
  - destruct (before x z).
    + by rewrite elem_of_cons.
    + rewrite !elem_of_cons, IH. tauto.
Qed.

Lemma elem_of_sort {A} (before : A -> A -> bool) y l :
  y ∈ Js.sort before l <-> y ∈ l.
Proof.
  induction l as [|x l IH]; simpl; [done|].
  by rewrite elem_of_insert_sorted, elem_of_cons, IH.
Qed.

Lemma sort_nil_inv {A} (before : A -> A -> bool) l :
  Js.sort before l = [] -> l = [].
Proof.
  destruct l as [|x l]; [done|]. intros H.
  assert (Hx : x ∈ Js.sort before (x :: l)) by (apply elem_of_sort; by left).
  rewrite H in Hx. by apply not_elem_of_nil in Hx.
Qed.

Lemma filter_all {A} (p : A -> bool) l :
  (forall x, x ∈ l -> p x = true) -> List.filter p l = l.
Proof.
  induction l as [|x l IH]; intros H; simpl; [done|].
  rewrite (H x) by by left. f_equal. apply IH. intros y Hy. apply H.
  by right.
Qed.

Lemma filter_none {A} (p : A -> bool) l :
  (forall x, x ∈ l -> p x = false) -> List.filter p l = [].
Proof.
  induction l as [|x l IH]; intros H; simpl; [done|].
  rewrite (H x) by by left. apply IH. intros y Hy. apply H. by right.
Qed.

Section ResolverFacts.

Context (Date_parse : string -> option Z).

Local Abbreviation time r :=
  (getTime Date_parse (OperatorRecord.createdAt r)).

(** The keys of [supersededBy] are the non-empty [supersedes] strings. *)
Lemma elem_of_supersededBy_fold (records : list OperatorRecord.t)
    (m : gmap string (option string)) c :
  c ∈ dom (fold_left
             (fun (supersededBy : gmap string (option string)) record =>
                match OperatorRecord.supersedes record with
                | Some target =>
                    if Js.truthy (Some target)
                    then <[target := OperatorRecord.createdAt record]>
                           supersededBy
                    else supersededBy
                | None => supersededBy
                end) records m)
  <-> c ∈ dom m \/
      exists r, r ∈ records /\ OperatorRecord.supersedes r = Some c
                /\ c <> "".
Proof.
  revert m. induction records as [|r records IH]; intros m; simpl.
  - split; [by left|]. intros [?|(r & Hr & _)]; [done|].
    by apply not_elem_of_nil in Hr.
  - rewrite IH. clear IH. split.
    + intros [Hm|(r' & Hr' & Hsup & Hne)].
      * destruct (OperatorRecord.supersedes r) as [target|] eqn:Hsup;
          [|by left].
        simpl in Hm. destruct (String.eqb_spec target "") as [->|Hne];
          simpl in Hm; [by left|].
        apply dom_insert, elem_of_union in Hm as [Hm|Hm]; [|by left].
        apply elem_of_singleton in Hm as ->.
        right. exists r. split; [by left|done].
      * right. exists r'. split; [by right|done].
    + intros [Hm|(r' & Hr' & Hsup & Hne)].
      * left. destruct (OperatorRecord.supersedes r) as [target|];
          [|done].
        destruct (negb (String.eqb target "")); [|done].
        apply dom_insert, elem_of_union. by right.
      * apply elem_of_cons in Hr' as [->|Hr'].
        -- left. rewrite Hsup. simpl.
           apply String.eqb_neq in Hne. rewrite Hne. simpl.
           apply dom_insert, elem_of_union. left.
           by apply elem_of_singleton.
        -- right. by exists r'.
Qed.

Lemma elem_of_supersededBy (records : list OperatorRecord.t) c :
  c ∈ dom (supersededBy_of records) <->
  exists r, r ∈ records /\ OperatorRecord.supersedes r = Some c /\ c <> "".
Proof.
  unfold supersededBy_of. rewrite elem_of_supersededBy_fold.
  rewrite dom_empty. split; [|by right].
  intros [H|H]; [by apply not_elem_of_empty in H|done].
Qed.

(** When every timestamp parses, the sort puts a latest record first. *)
Lemma sort_head_latest (records : list OperatorRecord.t) :
  records <> [] ->
  (forall r, r ∈ records -> is_Some (time r)) ->
  exists r, head (Js.sort (newest_first Date_parse) records) = Some r /\
            latest_createdAt Date_parse records r.
Proof.
  induction records as [|x records IH]; intros Hne Hparse; [done|].
  destruct (Hparse x ltac:(by left)) as [tx Htx].
  destruct records as [|y records].
  - exists x. split; [done|]. exists tx. split; [done|].
    intros r' t' Hr' Ht'. apply list_elem_of_singleton in Hr' as ->.
    rewrite Htx in Ht'. injection Ht' as ->. lia.
  - destruct IH as (r & Hhead & tr & Htr & Hlatest); [done| |].
    { intros r' Hr'. apply Hparse. by right. }
    change (Js.sort (newest_first Date_parse) (x :: y :: records))
      with (Js.insert_sorted (newest_first Date_parse) x
              (Js.sort (newest_first Date_parse) (y :: records))).
    destruct (Js.sort (newest_first Date_parse) (y :: records)) as [|z sorted];
      [done|].
    simpl in Hhead. injection Hhead as ->. simpl.
    unfold newest_first at 1. rewrite Htr, Htx.
    destruct (Z.leb_spec (tr - tx) 0) as [Hle|Hgt]; simpl.
    + exists x. split; [done|]. exists tx. split; [done|].
      intros r' t' Hr' Ht'. apply elem_of_cons in Hr' as [->|Hr'].
      * rewrite Htx in Ht'. injection Ht' as ->. lia.
      * specialize (Hlatest r' t' Hr' Ht'). lia.
    + exists r. split; [done|]. exists tr. split; [done|].
      intros r' t' Hr' Ht'. apply elem_of_cons in Hr' as [->|Hr'].
      * rewrite Htx in Ht'. injection Ht' as ->. lia.
      * by apply (Hlatest r').
Qed.

Lemma resolveCurrentOperator_elem (records : list OperatorRecord.t) r :
  resolveCurrentOperator Date_parse records = Some r -> r ∈ records.
Proof.
  unfold resolveCurrentOperator. destruct records as [|x records]; [done|].
  cbn [length Nat.eqb]. unfold Js.first_or.
  destruct (unsuperseded_of Date_parse (x :: records)) as [|u us] eqn:Hu.
  - simpl. intros [= <-]. by left.
  - intros [= <-].
    assert (Hin : u ∈ unsuperseded_of Date_parse (x :: records))
      by (rewrite Hu; by left).
    unfold unsuperseded_of in Hin. apply elem_of_sort in Hin.
    by apply list_elem_of_In, filter_In in Hin as [?%list_elem_of_In _].
Qed.

Lemma resolveCurrentOperator_some (records : list OperatorRecord.t) :
  records <> [] ->
  exists r, resolveCurrentOperator Date_parse records = Some r.
Proof.
  destruct records as [|x records]; [done|]. intros _.
  unfold resolveCurrentOperator. cbn [length Nat.eqb]. unfold Js.first_or.
  destruct (unsuperseded_of Date_parse (x :: records)); eauto.
Qed.

(** Reading the operator records of a reachable repository neither
    throws nor writes to the console. *)
Lemma getCurrentOperator_reachable (agent : AtpAgent) agentDid envs :
  listRecords agent agentDid at_witness_operator 100 = Ok envs ->
  getCurrentOperator Date_parse agent agentDid =
  (Ok (resolveCurrentOperator Date_parse (map Envelope.value envs)), []).
Proof.
  intros Hfetch. unfold getCurrentOperator, getOperatorRecords.
  by rewrite Hfetch.
Qed.

End ResolverFacts.

(** C10.  The resolution step returns null exactly when the list of
    records is empty; for a non-empty list it returns a record of the list,
    whatever the supersedes links are; and with it [getCurrentOperator]
    returns, without throwing and without output, for every repository
    that can be read. *)
Theorem resolveCurrentOperator_total (Date_parse : string -> option Z)
    (records : list OperatorRecord.t) :
  (resolveCurrentOperator Date_parse records = None <-> records = [])
  /\ (records <> [] ->
      exists r, resolveCurrentOperator Date_parse records = Some r
                /\ r ∈ records)
  /\ (forall agent agentDid envs,
        listRecords agent agentDid at_witness_operator 100 = Ok envs ->
        map Envelope.value envs = records ->
        getCurrentOperator Date_parse agent agentDid =
        (Ok (resolveCurrentOperator Date_parse records), [])).
Proof.
  split; [|split].
  - split.
    + intros Hnone. destruct records as [|x records]; [done|].
      destruct (resolveCurrentOperator_some Date_parse (x :: records))
        as [r Hr]; [done|]. congruence.
    + by intros ->.
  - intros Hne.
    destruct (resolveCurrentOperator_some Date_parse records Hne) as [r Hr].
    exists r. split; [done|]. by eapply resolveCurrentOperator_elem.
  - intros agent agentDid envs Hfetch <-.
    by apply getCurrentOperator_reachable.
Qed.

Lemma resolveCurrentOperator_total_witness :
  (exists r,
     resolveCurrentOperator Iso8601.parse
       (map Envelope.value [cycle_first; cycle_second]) = Some r
     /\ r ∈ map Envelope.value [cycle_first; cycle_second])
  /\ getCurrentOperator Iso8601.parse cycle_agent "did:plc:agent-cycle" =
     (Ok (resolveCurrentOperator Iso8601.parse
            (map Envelope.value [cycle_first; cycle_second])), []).
Proof.
  pose proof (resolveCurrentOperator_total Iso8601.parse
                (map Envelope.value [cycle_first; cycle_second]))
    as (_ & Hsome & Hrun).
  split.
  - apply Hsome. discriminate.
  - apply (Hrun cycle_agent "did:plc:agent-cycle"
             [cycle_first; cycle_second]); reflexivity.
Defined.

(** C3.  The repository lists two records; the second, created earlier,
    supersedes the first.  The candidate tip set of the specification is
    the second record alone, the candidate set computed by the code holds
    both, and the code returns the first, the superseded one. *)
Theorem getCurrentOperator_returns_superseded :
  let records := [superseded_operator; superseding_operator] in
  spec_is_superseded records superseded_operator = true
  /\ spec_candidate_tips records = [superseding_operator]
  /\ unsuperseded_of Iso8601.parse (map Envelope.value records) =
     [Envelope.value superseded_operator;
      Envelope.value superseding_operator]
  /\ getCurrentOperator Iso8601.parse migrating_agent
       "did:plc:agent-migrating" =
     (Ok (Some (Envelope.value superseded_operator)), []).
Proof. repeat split; vm_compute; reflexivity. Qed.




(* ====================================================================== *)
(** * Discovery: properties *)
(* ====================================================================== *)

Lemma social_loop_run (agent : AtpAgent) targetAgentDid witnesses acc :
  for_of witnesses (social_fetch agent targetAgentDid) acc =
  (Ok (acc ++ concat (map (social_records agent targetAgentDid) witnesses)),
   concat (map (social_lines agent) witnesses)).
Proof.
  revert acc. induction witnesses as [|w witnesses IH]; intros acc.
  - simpl. by rewrite app_nil_r.
  - cbn [for_of map concat]. unfold social_fetch at 1.
    unfold social_records at 1, social_lines at 1.
    destruct (listRecords agent w at_witness_attestation 100)
      as [response|err]; simpl; rewrite IH; simpl.
    + by rewrite <- app_assoc.
    + done.
Qed.

(** Social discovery never throws: it returns the records of the
    witnesses it reached and logs one line for each it did not reach. *)
Lemma discoverThroughSocialGraph_run (agent : AtpAgent) targetAgentDid
    witnesses :
  discoverThroughSocialGraph agent targetAgentDid witnesses =
  (Ok (concat (map (social_records agent targetAgentDid) witnesses)),
   concat (map (social_lines agent) witnesses)).
Proof. unfold discoverThroughSocialGraph. by rewrite social_loop_run. Qed.

(** [findPotentialWitnesses] never throws and logs nothing but its own
    line. *)
Lemma findPotentialWitnesses_run (agent : AtpAgent) targetAgentDid :
  exists discovered out,
    findPotentialWitnesses agent targetAgentDid = (Ok discovered, out)
    /\ forall line, line ∈ out -> line = graph_line.
Proof.
  unfold findPotentialWitnesses.
  destruct (listRecords agent targetAgentDid app_bsky_feed_post 50)
    as [posts|err].
  - destruct (scan_posts (map Envelope.value posts) []) as [ws [e|]];
      simpl; eexists _, _; (split; [reflexivity|]); intros line Hin.
    + by apply list_elem_of_singleton in Hin.
    + by apply not_elem_of_nil in Hin.
  - simpl. eexists _, _. split; [reflexivity|]. intros line Hin.
    by apply list_elem_of_singleton in Hin.
Qed.

Lemma registry_loop_run (agent : AtpAgent) targetAgentDid witnesses acc :
  exists attestations,
    for_of witnesses (registry_fetch agent targetAgentDid) acc =
    (Ok attestations, []).
Proof.
  revert acc. induction witnesses as [|w witnesses IH]; intros acc.
  - by eexists.
  - cbn [for_of]. unfold registry_fetch at 1.
    destruct (listRecords agent w at_witness_attestation 100)
      as [response|err]; simpl.
    + match goal with
      | |- context [for_of witnesses _ ?acc'] =>
          destruct (IH acc') as [atts ->]
      end.
      by eexists.
    + destruct (IH acc) as [atts ->]. by eexists.
Qed.

(** Registry discovery never throws and logs nothing but its own line. *)
Lemma discoverThroughRegistry_run (agent : AtpAgent) registryDid
    targetAgentDid :
  exists attestations out,
    discoverThroughRegistry agent registryDid targetAgentDid =
    (Ok attestations, out)
    /\ forall line, line ∈ out -> line = registry_line.
Proof.
  unfold discoverThroughRegistry.
  destruct (listRecords agent registryDid at_witness_registry 100)
    as [registryRecords|err]; simpl.
  - destruct (registry_loop_run agent targetAgentDid
                (registered_witnesses registryRecords) []) as [atts Hrun].
    cbn [value_of] in *. rewrite Hrun. eexists _, _.
    split; [reflexivity|]. intros line Hin.
    by apply not_elem_of_nil in Hin.
  - eexists _, _. split; [reflexivity|]. intros line Hin.
    by apply list_elem_of_singleton in Hin.
Qed.

(** ** The state of [discoverAttestations] *)

Lemma consistent_init options : consistent options Discovering.init.
Proof.
  repeat split; simpl.
  - intros H. by apply not_elem_of_empty in H.
  - intros (a & Ha & _). by apply not_elem_of_nil in Ha.
  - intros line H. by apply not_elem_of_nil in H.
  - intros _. constructor.
Qed.

Section AddAttestations.

Context (options : DiscoveryOptions.t) (source : SourceKey).
Hypothesis source_adds : source <> indexer.

Lemma addAttestation_consistent st a :
  consistent options st ->
  consistent options (addAttestation options source st a).
Proof.
  intros (Hseen & Hcount & Hwarn & Huniq). unfold addAttestation.
  destruct (enabled (DiscoveryOptions.deduplicate options)) eqn:Hdedup;
    cbn [negb orb].
  - destruct (bool_decide (key_of a ∈ Discovering.seenUris st)) eqn:Hin;
      cbn [negb]; [done|].
    apply bool_decide_eq_false in Hin.
    repeat split; cbn [Discovering.attestations Discovering.sources
                       Discovering.warnings Discovering.seenUris].
    + intros Hk. apply elem_of_union in Hk as [Hk|Hk].
      * apply elem_of_singleton in Hk as ->. exists a.
        split; [|done]. apply elem_of_app. right.
        by apply list_elem_of_singleton.
      * apply Hseen in Hk as (a' & Ha' & Hkey). exists a'.
        split; [|done]. apply elem_of_app. by left.
    + intros (a' & Ha' & Hkey). apply elem_of_union.
      apply elem_of_app in Ha' as [Ha'|Ha'].
      * right. apply Hseen. by exists a'.
      * left. apply list_elem_of_singleton in Ha' as ->.
        by apply elem_of_singleton.
    + unfold counted in *. cbn [Discovering.attestations
                                Discovering.sources].
      rewrite length_app. simpl.
      destruct source; [| |done]; simpl; lia.
    + done.
    + intros _. cbn [Discovering.attestations].
      rewrite map_app. simpl. apply NoDup_app.
      split; [by apply Huniq|]. split; [|apply NoDup_singleton].
      intros k Hk Hk'. apply list_elem_of_singleton in Hk' as ->.
      apply Hin, Hseen. apply list_elem_of_fmap in Hk as (a' & Hkey & Ha').
      by exists a'.
  - repeat split; cbn [Discovering.attestations Discovering.sources
                       Discovering.warnings Discovering.seenUris].
    + intros Hk. apply elem_of_union in Hk as [Hk|Hk].
      * apply elem_of_singleton in Hk as ->. exists a.
        split; [|done]. apply elem_of_app. right.
        by apply list_elem_of_singleton.
      * apply Hseen in Hk as (a' & Ha' & Hkey). exists a'.
        split; [|done]. apply elem_of_app. by left.
    + intros (a' & Ha' & Hkey). apply elem_of_union.
      apply elem_of_app in Ha' as [Ha'|Ha'].
      * right. apply Hseen. by exists a'.
      * left. apply list_elem_of_singleton in Ha' as ->.
        by apply elem_of_singleton.
    + unfold counted in *. cbn [Discovering.attestations
                                Discovering.sources].
      rewrite length_app. simpl.
      destruct source; [| |done]; simpl; lia.
    + done.
    + intros Hon. unfold keys_unique in Huniq. congruence.
Qed.

Lemma addAttestation_keeps st a :
  keeps st (addAttestation options source st a).
Proof.
  intros a' Ha'. unfold addAttestation.
  destruct (_ || _); [|done]. simpl. apply elem_of_app. by left.
Qed.

(** Whatever the options, the key of a record added is among the keys
    kept afterwards. *)
Lemma addAttestation_represents st a :
  seen_are_keys st ->
  exists a', a' ∈ Discovering.attestations
                    (addAttestation options source st a)
             /\ key_of a' = key_of a.
Proof.
  intros Hseen. unfold addAttestation.
  destruct (negb (enabled (DiscoveryOptions.deduplicate options)));
    cbn [orb].
  - exists a. split; [|done]. simpl. apply elem_of_app. right.
    by apply list_elem_of_singleton.
  - destruct (bool_decide (key_of a ∈ Discovering.seenUris st)) eqn:Hin;
      cbn [negb].
    + apply bool_decide_eq_true in Hin. by apply Hseen.
    + exists a. split; [|done]. simpl. apply elem_of_app. right.
      by apply list_elem_of_singleton.
Qed.

(** With deduplication off every record is added. *)
Lemma addAttestation_raw st a :
  enabled (DiscoveryOptions.deduplicate options) = false ->
  a ∈ Discovering.attestations (addAttestation options source st a).
Proof.
  intros Hoff. unfold addAttestation. rewrite Hoff. simpl.
  apply elem_of_app. right. by apply list_elem_of_singleton.
Qed.

Lemma addAttestations_consistent new st :
  consistent options st ->
  consistent options (addAttestations options new source st).
Proof.
  unfold addAttestations. revert st.
  induction new as [|a new IH]; intros st Hst; [done|].
  simpl. by apply IH, addAttestation_consistent.
Qed.

Lemma addAttestations_keeps new st :
  keeps st (addAttestations options new source st).
Proof.
  unfold addAttestations. revert st.
  induction new as [|a new IH]; intros st; [by intros a' Ha'|].
  simpl. intros a' Ha'. by apply IH, addAttestation_keeps.
Qed.

Lemma addAttestations_represents new st a :
  consistent options st -> a ∈ new ->
  exists a', a' ∈ Discovering.attestations
                    (addAttestations options new source st)
             /\ key_of a' = key_of a.
Proof.
  unfold addAttestations. revert st.
  induction new as [|b new IH]; intros st Hst Ha.
  - by apply not_elem_of_nil in Ha.
  - simpl. apply elem_of_cons in Ha as [->|Ha].
    + destruct (addAttestation_represents st b) as (a' & Ha' & Hkey);
        [apply Hst|].
      exists a'. split; [|done].
      by apply (addAttestations_keeps new).
    + by apply IH; [apply addAttestation_consistent|].
Qed.

Lemma addAttestations_raw new st a :
  enabled (DiscoveryOptions.deduplicate options) = false -> a ∈ new ->
  a ∈ Discovering.attestations (addAttestations options new source st).
Proof.
  intros Hoff. unfold addAttestations. revert st.
  induction new as [|b new IH]; intros st Ha.
  - by apply not_elem_of_nil in Ha.
  - simpl. apply elem_of_cons in Ha as [->|Ha]; [|by apply IH].
    apply (addAttestations_keeps new). by apply addAttestation_raw.
Qed.

End AddAttestations.

Lemma for_of_inv {A S} (P : S -> Prop) (L : string -> Prop) (xs : list A)
    (body : A -> S -> M S) (s : S) :
  (forall x s, x ∈ xs -> P s ->
     exists s' out, body x s = (Ok s', out) /\ P s'
                    /\ forall line, line ∈ out -> L line) ->
  P s ->
  exists s' out, for_of xs body s = (Ok s', out) /\ P s'
                 /\ forall line, line ∈ out -> L line.
Proof.
  revert s. induction xs as [|x xs IH]; intros s Hbody Hs.
  - exists s, []. split; [done|]. split; [done|].
    intros line Hin. by apply not_elem_of_nil in Hin.
  - destruct (Hbody x s ltac:(by left) Hs) as (s1 & out1 & Hrun1 & Hs1 & Hout1).
    destruct (IH s1) as (s2 & out2 & Hrun2 & Hs2 & Hout2); [|done|].
    { intros y s' Hy. apply Hbody. by right. }
    exists s2, (out1 ++ out2). cbn [for_of]. unfold bind.
    rewrite Hrun1, Hrun2. split; [done|]. split; [done|].
    intros line Hin. apply elem_of_app in Hin as [Hin|Hin]; auto.
Qed.

Lemma elem_of_set_add_fold (xs acc : list string) x :
  x ∈ fold_left (fun s y => Js.set_add y s) xs acc <-> x ∈ acc \/ x ∈ xs.
Proof.
  revert acc. induction xs as [|y xs IH]; intros acc; simpl.
  - split; [by left|]. intros [?|H]; [done|by apply not_elem_of_nil in H].
  - rewrite IH, elem_of_cons. unfold Js.set_add.
    destruct (existsb (String.eqb y) acc) eqn:Hy.
    + apply existsb_exists in Hy as (z & Hz & Heq).
      apply String.eqb_eq in Heq as <-. apply list_elem_of_In in Hz.
      split; [tauto|]. intros [?|[->|?]]; auto.
    + rewrite elem_of_app, list_elem_of_singleton. tauto.
Qed.

Lemma elem_of_set_from (xs : list string) x : x ∈ Js.set_from xs <-> x ∈ xs.
Proof.
  unfold Js.set_from. rewrite elem_of_set_add_fold. split; [|by right].
  intros [H|H]; [by apply not_elem_of_nil in H|done].
Qed.

Section DiscoverFacts.

Context (fetch : string -> list (string * string) -> outcome HttpResponse.t)
        (agent : AtpAgent) (targetAgentDid : string)
        (options : DiscoveryOptions.t).

Lemma find_witnesses_run st :
  exists witnesses out,
    find_witnesses agent targetAgentDid options st =
    (Ok (witnesses, st), out)
    /\ (forall line, line ∈ out -> line = graph_line)
    /\ (forall w, w ∈ or_empty (DiscoveryOptions.knownWitnesses options) ->
                  w ∈ witnesses)
    /\ (enabled (DiscoveryOptions.discoverWitnessesSocially options)
        = false ->
        witnesses = or_empty (DiscoveryOptions.knownWitnesses options)
        /\ out = []).
Proof.
  unfold find_witnesses.
  destruct (enabled (DiscoveryOptions.discoverWitnessesSocially options)).
  - destruct (findPotentialWitnesses_run agent targetAgentDid)
      as (discovered & out & Hrun & Hout).
    rewrite Hrun. simpl. eexists _, _. split; [reflexivity|].
    split; [by rewrite app_nil_r|]. split; [|done].
    intros w Hw. apply elem_of_set_from, elem_of_app. by left.
  - eexists _, _. split; [reflexivity|]. split.
    + intros line Hin. by apply not_elem_of_nil in Hin.
    + by split.
Qed.

Lemma registry_step_run registryDid st :
  consistent options st ->
  exists st' out,
    registry_step agent targetAgentDid options registryDid st =
    (Ok st', out)
    /\ (consistent options st' /\ keeps st st')
    /\ forall line, line ∈ out -> line = registry_line.
Proof.
  intros Hst. unfold registry_step.
  destruct (discoverThroughRegistry_run agent registryDid targetAgentDid)
    as (atts & out & Hrun & Hout).
  rewrite Hrun. simpl. eexists _, _. split; [reflexivity|].
  split; [|by rewrite app_nil_r].
  split; [by apply addAttestations_consistent|].
  apply addAttestations_keeps.
Qed.

Lemma indexer_step_run indexer_ st :
  indexer_ ∈ or_empty (DiscoveryOptions.indexers options) ->
  consistent options st ->
  exists st' out,
    indexer_step fetch targetAgentDid indexer_ st = (Ok st', out)
    /\ (consistent options st' /\ keeps st st')
    /\ forall line, line ∈ out -> False.
Proof.
  intros Hin (Hseen & Hcount & Hwarn & Huniq).
  assert (Hwarned :
    consistent options
      (Discovering.push_warning (indexer_line indexer_) st)
    /\ keeps st (Discovering.push_warning (indexer_line indexer_) st)).
  { split; [|by intros a Ha].
    split; [exact Hseen|]. split; [exact Hcount|]. split; [|exact Huniq].
    intros line Hline. simpl in Hline.
    apply elem_of_app in Hline as [Hline|Hline]; [by apply Hwarn|].
    apply list_elem_of_singleton in Hline as ->. by exists indexer_. }
  unfold indexer_step, discoverThroughIndexer.
  destruct (fetch _ _) as [response|err]; simpl.
  - destruct (HttpResponse.ok response); simpl.
    + destruct (HttpResponse.json response) as [body|err]; simpl.
      * eexists _, _. split; [reflexivity|]. split.
        -- split; [|by intros a Ha].
           split; [exact Hseen|]. split; [|by split].
           unfold counted in *. simpl. lia.
        -- intros line Hline. by apply not_elem_of_nil in Hline.
      * eexists _, _. split; [reflexivity|]. split; [done|].
        intros line Hline. by apply not_elem_of_nil in Hline.
    + eexists _, _. split; [reflexivity|]. split; [done|].
      intros line Hline. by apply not_elem_of_nil in Hline.
  - eexists _, _. split; [reflexivity|]. split; [done|].
    intros line Hline. by apply not_elem_of_nil in Hline.
Qed.

(** A run of [discoverAttestations]: it returns, with the console lines
    of the three channels in order, a consistent state that keeps every
    attestation that the social channel added. *)
Lemma discoverAttestations_run :
  exists witnesses st out_graph out_registry,
    discoverAttestations fetch agent targetAgentDid options =
    (Ok (Discovering.result st),
     out_graph ++ concat (map (social_lines agent) witnesses)
     ++ out_registry)
    /\ (forall line, line ∈ out_graph -> line = graph_line)
    /\ (forall line, line ∈ out_registry -> line = registry_line)
    /\ (forall w, w ∈ or_empty (DiscoveryOptions.knownWitnesses options) ->
                  w ∈ witnesses)
    /\ (enabled (DiscoveryOptions.discoverWitnessesSocially options)
        = false ->
        witnesses = or_empty (DiscoveryOptions.knownWitnesses options)
        /\ out_graph = [])
    /\ consistent options st
    /\ keeps (addAttestations options
                (concat (map (social_records agent targetAgentDid)
                           witnesses))
                social Discovering.init) st.
Proof.
  destruct (find_witnesses_run Discovering.init)
    as (witnesses & out0 & Hfound & Hout0 & Hknown & Hoff).
  set (st1 := addAttestations options
                (concat (map (social_records agent targetAgentDid)
                           witnesses))
                social Discovering.init).
  assert (Hst1 : consistent options st1 /\ keeps st1 st1).
  { split; [|by intros a Ha].
    apply addAttestations_consistent; [done|apply consistent_init]. }
  destruct (for_of_inv
              (fun st => consistent options st /\ keeps st1 st)
              (fun line => line = registry_line)
              (or_empty (DiscoveryOptions.registries options))
              (registry_step agent targetAgentDid options) st1)
    as (st2 & out2 & Hrun2 & Hst2 & Hout2); [|done|].
  { intros registryDid st _ [Hst Hkeeps].
    destruct (registry_step_run registryDid st Hst)
      as (st' & out & Hrun & [Hst' Hkeeps'] & Hout).
    exists st', out. split; [done|]. split; [|done].
    split; [done|]. intros a Ha. by apply Hkeeps', Hkeeps. }
  destruct (for_of_inv
              (fun st => consistent options st /\ keeps st1 st)
              (fun _ => False)
              (or_empty (DiscoveryOptions.indexers options))
              (indexer_step fetch targetAgentDid) st2)
    as (st3 & out3 & Hrun3 & Hst3 & Hout3); [|done|].
  { intros indexer_ st Hin [Hst Hkeeps].
    destruct (indexer_step_run indexer_ st Hin Hst)
      as (st' & out & Hrun & [Hst' Hkeeps'] & Hout).
    exists st', out. split; [done|]. split; [|done].
    split; [done|]. intros a Ha. by apply Hkeeps', Hkeeps. }
  assert (out3 = []) as ->.
  { destruct out3 as [|line out3]; [done|].
    destruct (Hout3 line). by left. }
  exists witnesses, st3, out0, out2.
  split; [|by destruct Hst3].
  unfold discoverAttestations. rewrite Hfound. unfold bind at 1.
  assert (Hsocial :
    (if (0 <? length witnesses)%nat
     then
       do socialAttestations <-
         discoverThroughSocialGraph agent targetAgentDid witnesses;
       ret (addAttestations options socialAttestations social
              Discovering.init)
     else ret Discovering.init) =
    (Ok st1, concat (map (social_lines agent) witnesses))).
  { destruct witnesses as [|w witnesses']; [done|].
    cbn [length Nat.ltb Nat.leb].
    rewrite discoverThroughSocialGraph_run. unfold bind, ret.
    by rewrite app_nil_r. }
  rewrite Hsocial. unfold bind at 1. rewrite Hrun2. unfold bind at 1.
  rewrite Hrun3. simpl. by rewrite !app_nil_r.
Qed.

End DiscoverFacts.

(** In every run, the social and registry counters add up to the number
    of attestations returned, and with deduplication on no two attestations
    returned share a key. *)
Lemma discoverAttestations_counted fetch agent targetAgentDid options :
  exists r console,
    discoverAttestations fetch agent targetAgentDid options = (Ok r, console)
    /\ length (DiscoveryResult.attestations r) =
       (Sources.social (DiscoveryResult.sources r)
        + Sources.registry (DiscoveryResult.sources r))%nat
    /\ (enabled (DiscoveryOptions.deduplicate options) = true ->
        NoDup (map key_of (DiscoveryResult.attestations r))).
Proof.
  destruct (discoverAttestations_run fetch agent targetAgentDid options)
    as (ws & st & out0 & out2 & Hrun & _ & _ & _ & _ & Hst & _).
  destruct Hst as (_ & Hcount & _ & Huniq).
  eexists _, _. split; [exact Hrun|]. by split.
Qed.

(** ** Console lines *)

Lemma string_length_app (a b : string) :
  String.length (a +:+ b) = (String.length a + String.length b)%nat.
Proof.
  induction a as [|c a IH]; [done|].
  change (String c a +:+ b) with (String c (a +:+ b)).
  simpl. by rewrite IH.
Qed.

Lemma string_app_inj_r (s a b : string) : a +:+ s = b +:+ s -> a = b.
Proof.
  intros H.
  assert (Hlen : String.length a = String.length b).
  { apply (f_equal String.length) in H.
    rewrite !string_length_app in H. lia. }
  revert b H Hlen. induction a as [|c a IH]; intros [|d b] H Hlen;
    try done.
  change (String c (a +:+ s) = String d (b +:+ s)) in H.
  injection H as -> H. simpl in Hlen.
  f_equal. apply IH; [done|lia].
Qed.

Lemma unreachable_line_inj w w' :
  unreachable_line w = unreachable_line w' -> w = w'.
Proof.
  unfold unreachable_line. intros H.
  apply (inj (String.app _)) in H. by apply string_app_inj_r in H.
Qed.

Lemma unreachable_line_not_graph w : graph_line <> unreachable_line w.
Proof. unfold unreachable_line, graph_line. vm_compute. discriminate. Qed.

Lemma unreachable_line_not_registry w : registry_line <> unreachable_line w.
Proof. unfold unreachable_line, registry_line. vm_compute. discriminate. Qed.

Lemma count_occ_foreign (out : list string) (other line : string) :
  other <> line -> (forall l, l ∈ out -> l = other) ->
  count_occ string_dec out line = 0%nat.
Proof.
  intros Hneq Hall. apply count_occ_not_In. intros Hin.
  apply list_elem_of_In in Hin. apply Hneq. symmetry. by apply Hall.
Qed.

(** Social discovery logs the line of an unreachable witness once for each
    time the witness is fetched. *)
Lemma social_lines_count (agent : AtpAgent) (witnesses : list string) w err :
  listRecords agent w at_witness_attestation 100 = Throw err ->
  count_occ string_dec (concat (map (social_lines agent) witnesses))
    (unreachable_line w) =
  count_occ string_dec witnesses w.
Proof.
  intros Hfail. induction witnesses as [|w' witnesses IH]; [done|].
  cbn [map concat]. rewrite count_occ_app, IH. unfold social_lines at 1.
  destruct (string_dec w' w) as [->|Hneq].
  - rewrite Hfail.
    rewrite (count_occ_cons_eq string_dec [] (eq_refl (unreachable_line w))).
    by rewrite (count_occ_cons_eq string_dec witnesses (eq_refl w)).
  - rewrite (count_occ_cons_neq string_dec witnesses Hneq).
    destruct (listRecords agent w' at_witness_attestation 100); [done|].
    rewrite (count_occ_cons_neq string_dec []); [done|].
    intros Heq. by apply unreachable_line_inj in Heq.
Qed.

Lemma key_of_tagged a uri witnessDid :
  key_of (WitnessAttestation.tagged a uri witnessDid) = key_of a.
Proof. reflexivity. Qed.

Lemma relevant_tagged_elem targetAgentDid witnessDid response e :
  e ∈ response ->
  WitnessAttestation.subjectDid (Envelope.value e) = Some targetAgentDid ->
  WitnessAttestation.tagged (Envelope.value e) (Envelope.uri e) witnessDid
  ∈ relevant_tagged targetAgentDid witnessDid response.
Proof.
  intros He Hsubject. unfold relevant_tagged.
  apply list_elem_of_In, filter_In. split.
  - apply in_map_iff. exists e. split; [done|]. by apply list_elem_of_In.
  - cbn [WitnessAttestation.tagged WitnessAttestation.subjectDid].
    rewrite Hsubject. apply String.eqb_refl.
Qed.




(** C2.  The first witness and the indexer both hold the record with one
    canonical key.  With [deduplicate] on, discovery through the social
    channel and the indexer returns the record once but credits it twice,
    once to each channel; with [deduplicate] off it credits it twice and
    still returns one copy.  Through the social channel and a registry
    that lists the same witness the record is returned and credited once
    with [deduplicate] on, and twice with it off. *)
Theorem duplicate_through_indexer_credited_twice :
  indexed_key indexed = key_of (Envelope.value witnessed)
  /\ discoverAttestations indexer_fetch scenario_agent subject
       (DiscoveryOptions.mk (Some [witness_1]) None None
          (Some [example_indexer]) (Some true)) =
     (Ok (DiscoveryResult.mk
            [WitnessAttestation.tagged sample_attestation
               (Envelope.uri witnessed) witness_1]
            (Sources.mk 1 0 1) []), [])
  /\ discoverAttestations indexer_fetch scenario_agent subject
       (DiscoveryOptions.mk (Some [witness_1]) None None
          (Some [example_indexer]) (Some false)) =
     (Ok (DiscoveryResult.mk
            [WitnessAttestation.tagged sample_attestation
               (Envelope.uri witnessed) witness_1]
            (Sources.mk 1 0 1) []), [])
  /\ discoverAttestations no_fetch scenario_agent subject
       (DiscoveryOptions.mk (Some [witness_1]) None
          (Some ["did:plc:witness-registry"]) None (Some true)) =
     (Ok (DiscoveryResult.mk
            [WitnessAttestation.tagged sample_attestation
               (Envelope.uri witnessed) witness_1]
            (Sources.mk 1 0 0) []), [])
  /\ discoverAttestations no_fetch scenario_agent subject
       (DiscoveryOptions.mk (Some [witness_1]) None
          (Some ["did:plc:witness-registry"]) None (Some false)) =
     (Ok (DiscoveryResult.mk
            [WitnessAttestation.tagged sample_attestation
               (Envelope.uri witnessed) witness_1;
             sample_attestation]
            (Sources.mk 1 1 0) []), []).
Proof. repeat split; vm_compute; reflexivity. Qed.

(** C5.  With no witness and one indexer that reports one attestation,
    the run returns no attestation and an indexer counter of one: the
    length of the list returned is 0 and the three counters add up
    to 1. *)
Theorem indexer_counted_not_added :
  exists r,
    discoverAttestations indexer_fetch scenario_agent subject
      (DiscoveryOptions.mk None None None (Some [example_indexer]) None) =
    (Ok r, [])
    /\ DiscoveryResult.attestations r = []
    /\ DiscoveryResult.sources r = Sources.mk 0 0 1
    /\ length (DiscoveryResult.attestations r) = 0%nat
    /\ (Sources.social (DiscoveryResult.sources r)
        + Sources.registry (DiscoveryResult.sources r)
        + Sources.indexer (DiscoveryResult.sources r) = 1)%nat.
Proof.
  exists (DiscoveryResult.mk [] (Sources.mk 0 0 1) []).
  split; [vm_compute; reflexivity|]. by repeat split.
Qed.
